(** * Frontier Designs Tranzport driver (drivers/staging/frontier/tranzport.c)

    A shallow embedding of the driver's device handle, its load-time
    parameters, its sysfs attributes, the transfer shutdown routine and the
    inbound completion callback, followed by the properties checked on them.

    Conventions.
    - C integers ([int], [size_t], [unsigned char], [unsigned long]) are [Z];
      a narrowing store writes the value modulo the width of the field.
    - The two [unsigned int] ring indices are [nat].  The code that moves
      them lies beyond the available source; the spec, from which the ring
      operations are modelled, puts no width on them.
    - A pointer to a kernel object (interface, endpoint, URB) is its address,
      a [Z], with [NULL = 0].  A pointer to a buffer of the driver's own is
      modelled by the buffer it points to.
    - Calls into the kernel (USB core, logging, wait queues) are recorded in
      a trace: a function with effects returns the new handle together with
      the list of kernel calls it made, in program order. *)

From Stdlib Require Import ZArith Ascii String DecimalString.
From stdpp Require Import base tactics option list numbers strings.

Local Open Scope Z_scope.

(** ** Kernel constants used by the driver

    These come from the kernel headers, not from the driver itself. *)

Definition pointer := Z.
Definition NULL : pointer := 0.

(* include/uapi/asm-generic/errno-base.h, errno.h *)
Definition ENOENT : Z := 2.
Definition EINVAL : Z := 22.
Definition ECONNRESET : Z := 104.
Definition ESHUTDOWN : Z := 108.

(* include/linux/stat.h, octal 0444 and 0200 *)
Definition S_IRUGO : Z := 292.
Definition S_IWUSR : Z := 128.
(* octal 0222: any write permission bit *)
Definition S_IWUGO : Z := 146.

(** ** Load-time parameters (lines 70-117) *)

Definition SUPPRESS_EXTRA_OFFLINE_EVENTS : Z := 1.
Definition COMPRESS_WHEEL_EVENTS : Z := 1.
Definition BUFFERED_READS : Z := 1.
Definition RING_BUFFER_SIZE : Z := 1000.
Definition WRITE_BUFFER_SIZE : Z := 34.
Definition TRANZPORT_USB_TIMEOUT : Z := 10.
Definition TRANZPORT_DEBUG : Z := 0.

(** The five file-scope variables exposed through [module_param]; the record
    is the state of the module's parameters, [default_params] their
    initialisers. *)
Record module_params := {
  debug : Z;
  ring_buffer_size : Z;
  write_buffer_size : Z;
  min_interrupt_in_interval : Z;
  min_interrupt_out_interval : Z
}.

Definition default_params : module_params := {|
  debug := TRANZPORT_DEBUG;
  ring_buffer_size := RING_BUFFER_SIZE;
  write_buffer_size := WRITE_BUFFER_SIZE;
  min_interrupt_in_interval := TRANZPORT_USB_TIMEOUT;
  min_interrupt_out_interval := TRANZPORT_USB_TIMEOUT
|}.

(** [MODULE_PARM_DESC] strings, keyed by parameter name. *)
Definition parm_desc : list (string * string) :=
  [ ("debug", "Debug enabled or not");
    ("ring_buffer_size", "Read ring buffer size in reports");
    ("write_buffer_size", "Write buffer size");
    ("min_interrupt_in_interval", "Minimum interrupt in interval in ms");
    ("min_interrupt_out_interval", "Minimum interrupt out interval in ms") ]%string.

(** ** The device handle (lines 119-153) *)

(** [struct tranzport_cmd]: one report, [unsigned char cmd[8]]. *)
Record tranzport_cmd := { cmd : list Z }.

Definition zero_cmd : tranzport_cmd := {| cmd := replicate 8 0 |}.

#[global] Instance tranzport_cmd_inhabited : Inhabited tranzport_cmd :=
  populate zero_cmd.

#[global] Instance tranzport_cmd_eq_dec : EqDecision tranzport_cmd.
Proof. solve_decision. Defined.

(** A wait queue head is the list of tasks sleeping on it. *)
Definition wait_queue_head_t := list Z.

(** [struct usb_tranzport], field for field. *)
Record usb_tranzport := {
  mtx : bool;
  intf : pointer;
  open_count : Z;
  ring_buffer : list tranzport_cmd;
  ring_head : nat;
  ring_tail : nat;
  read_wait : wait_queue_head_t;
  write_wait : wait_queue_head_t;
  interrupt_in_buffer : list Z;
  interrupt_in_endpoint : pointer;
  interrupt_in_urb : pointer;
  interrupt_in_interval : Z;
  interrupt_in_endpoint_size : Z;
  interrupt_in_running : Z;
  interrupt_in_done : Z;
  interrupt_out_buffer : list Z;
  interrupt_out_endpoint : pointer;
  interrupt_out_urb : pointer;
  interrupt_out_interval : Z;
  interrupt_out_endpoint_size : Z;
  interrupt_out_busy : Z;
  enable : Z;
  offline : Z;
  compress_wheel : Z
}.

(** Field assignments [dev->field = v]. *)

Definition set_interrupt_in_running (v : Z) (d : usb_tranzport) : usb_tranzport :=
  {| mtx := mtx d; intf := intf d; open_count := open_count d;
     ring_buffer := ring_buffer d; ring_head := ring_head d;
     ring_tail := ring_tail d; read_wait := read_wait d;
     write_wait := write_wait d;
     interrupt_in_buffer := interrupt_in_buffer d;
     interrupt_in_endpoint := interrupt_in_endpoint d;
     interrupt_in_urb := interrupt_in_urb d;
     interrupt_in_interval := interrupt_in_interval d;
     interrupt_in_endpoint_size := interrupt_in_endpoint_size d;
     interrupt_in_running := v;
     interrupt_in_done := interrupt_in_done d;
     interrupt_out_buffer := interrupt_out_buffer d;
     interrupt_out_endpoint := interrupt_out_endpoint d;
     interrupt_out_urb := interrupt_out_urb d;
     interrupt_out_interval := interrupt_out_interval d;
     interrupt_out_endpoint_size := interrupt_out_endpoint_size d;
     interrupt_out_busy := interrupt_out_busy d;
     enable := enable d; offline := offline d;
     compress_wheel := compress_wheel d |}.

Definition set_compress_wheel_field (v : Z) (d : usb_tranzport) : usb_tranzport :=
  {| mtx := mtx d; intf := intf d; open_count := open_count d;
     ring_buffer := ring_buffer d; ring_head := ring_head d;
     ring_tail := ring_tail d; read_wait := read_wait d;
     write_wait := write_wait d;
     interrupt_in_buffer := interrupt_in_buffer d;
     interrupt_in_endpoint := interrupt_in_endpoint d;
     interrupt_in_urb := interrupt_in_urb d;
     interrupt_in_interval := interrupt_in_interval d;
     interrupt_in_endpoint_size := interrupt_in_endpoint_size d;
     interrupt_in_running := interrupt_in_running d;
     interrupt_in_done := interrupt_in_done d;
     interrupt_out_buffer := interrupt_out_buffer d;
     interrupt_out_endpoint := interrupt_out_endpoint d;
     interrupt_out_urb := interrupt_out_urb d;
     interrupt_out_interval := interrupt_out_interval d;
     interrupt_out_endpoint_size := interrupt_out_endpoint_size d;
     interrupt_out_busy := interrupt_out_busy d;
     enable := enable d; offline := offline d;
     compress_wheel := v |}.

Definition set_ring_buffer (v : list tranzport_cmd) (d : usb_tranzport) : usb_tranzport :=
  {| mtx := mtx d; intf := intf d; open_count := open_count d;
     ring_buffer := v; ring_head := ring_head d;
     ring_tail := ring_tail d; read_wait := read_wait d;
     write_wait := write_wait d;
     interrupt_in_buffer := interrupt_in_buffer d;
     interrupt_in_endpoint := interrupt_in_endpoint d;
     interrupt_in_urb := interrupt_in_urb d;
     interrupt_in_interval := interrupt_in_interval d;
     interrupt_in_endpoint_size := interrupt_in_endpoint_size d;
     interrupt_in_running := interrupt_in_running d;
     interrupt_in_done := interrupt_in_done d;
     interrupt_out_buffer := interrupt_out_buffer d;
     interrupt_out_endpoint := interrupt_out_endpoint d;
     interrupt_out_urb := interrupt_out_urb d;
     interrupt_out_interval := interrupt_out_interval d;
     interrupt_out_endpoint_size := interrupt_out_endpoint_size d;
     interrupt_out_busy := interrupt_out_busy d;
     enable := enable d; offline := offline d;
     compress_wheel := compress_wheel d |}.

Definition set_ring_head (v : nat) (d : usb_tranzport) : usb_tranzport :=
  {| mtx := mtx d; intf := intf d; open_count := open_count d;
     ring_buffer := ring_buffer d; ring_head := v;
     ring_tail := ring_tail d; read_wait := read_wait d;
     write_wait := write_wait d;
     interrupt_in_buffer := interrupt_in_buffer d;
     interrupt_in_endpoint := interrupt_in_endpoint d;
     interrupt_in_urb := interrupt_in_urb d;
     interrupt_in_interval := interrupt_in_interval d;
     interrupt_in_endpoint_size := interrupt_in_endpoint_size d;
     interrupt_in_running := interrupt_in_running d;
     interrupt_in_done := interrupt_in_done d;
     interrupt_out_buffer := interrupt_out_buffer d;
     interrupt_out_endpoint := interrupt_out_endpoint d;
     interrupt_out_urb := interrupt_out_urb d;
     interrupt_out_interval := interrupt_out_interval d;
     interrupt_out_endpoint_size := interrupt_out_endpoint_size d;
     interrupt_out_busy := interrupt_out_busy d;
     enable := enable d; offline := offline d;
     compress_wheel := compress_wheel d |}.

Definition set_ring_tail (v : nat) (d : usb_tranzport) : usb_tranzport :=
  {| mtx := mtx d; intf := intf d; open_count := open_count d;
     ring_buffer := ring_buffer d; ring_head := ring_head d;
     ring_tail := v; read_wait := read_wait d;
     write_wait := write_wait d;
     interrupt_in_buffer := interrupt_in_buffer d;
     interrupt_in_endpoint := interrupt_in_endpoint d;
     interrupt_in_urb := interrupt_in_urb d;
     interrupt_in_interval := interrupt_in_interval d;
     interrupt_in_endpoint_size := interrupt_in_endpoint_size d;
     interrupt_in_running := interrupt_in_running d;
     interrupt_in_done := interrupt_in_done d;
     interrupt_out_buffer := interrupt_out_buffer d;
     interrupt_out_endpoint := interrupt_out_endpoint d;
     interrupt_out_urb := interrupt_out_urb d;
     interrupt_out_interval := interrupt_out_interval d;
     interrupt_out_endpoint_size := interrupt_out_endpoint_size d;
     interrupt_out_busy := interrupt_out_busy d;
     enable := enable d; offline := offline d;
     compress_wheel := compress_wheel d |}.

(** ** Kernel calls made by the driver *)

Inductive kcall :=
  | usb_kill_urb (urb : pointer)
  | usb_submit_urb (urb : pointer)
  | wake_up_interruptible (tasks : wait_queue_head_t)
  | dev_info (format : string) (args : list Z)
  | dev_warn (format : string) (args : list Z).

Abbreviation trace := (list kcall).

#[global] Instance kcall_eq_dec : EqDecision kcall.
Proof. solve_decision. Defined.

(** [dbg_info]: logs through [dev_info] only when the [debug] parameter is
    nonzero (lines 81-82). *)
Definition dbg_info (p : module_params) (format : string) (args : list Z) : trace :=
  if decide (debug p = 0) then [] else [dev_info format args].

(** ** usb_tranzport_abort_transfers (lines 164-175) *)

Definition usb_tranzport_abort_transfers (dev : usb_tranzport)
  : usb_tranzport * trace :=
  let '(dev1, t1) :=
    if decide (interrupt_in_running dev = 0) then (dev, [])
    else
      let dev' := set_interrupt_in_running 0 dev in
      (dev', if decide (intf dev' = NULL) then []
             else [usb_kill_urb (interrupt_in_urb dev')]) in
  let t2 :=
    if decide (interrupt_out_busy dev1 = 0) then []
    else if decide (intf dev1 = NULL) then []
         else [usb_kill_urb (interrupt_out_urb dev1)] in
  (dev1, t1 ++ t2).

(** ** Sysfs attributes (lines 177-211) *)

Definition nl : string := String "010"%char EmptyString.

(** [sprintf(buf, "%d\n", v)]: the text written to [buf]. *)
Definition sprintf_d_nl (v : Z) : string :=
  (NilZero.string_of_int (Z.to_int v) ++ nl)%string.

(** [DEVICE_ATTR(name, mode, show, store)]; a [NULL] accessor is [None].
    [show] yields the return value and the text left in [buf]; [store] takes
    [buf] and [count] and yields the return value and the updated handle. *)
Record device_attribute := {
  attr_name : string;
  attr_mode : Z;
  attr_show : option (usb_tranzport -> Z * string);
  attr_store : option (usb_tranzport -> string -> Z -> Z * usb_tranzport)
}.

Section Attributes.

(** The kernel's [strict_strtoul(buf, base, &res)], which is not part of
    the driver: it yields its return code (0 on success) and the value
    left in [res]. *)
Variable strict_strtoul : string -> Z -> Z * Z.

(** [show_##value] *)
Definition show_value (value : usb_tranzport -> Z) (t : usb_tranzport)
  : Z * string :=
  let buf := sprintf_d_nl (value t) in
  (Z.of_nat (String.length buf), buf).

(** [set_##value]; [assign v t] is the assignment [t->value = v]. *)
Definition set_value (assign : Z -> usb_tranzport -> usb_tranzport)
    (t : usb_tranzport) (buf : string) (count : Z) : Z * usb_tranzport :=
  let '(rc, temp) := strict_strtoul buf 10 in
  if decide (rc = 0) then (count, assign temp t)
  else (- EINVAL, t).

(** The macro [show_int(value)]. *)
Definition show_int (name : string) (value : usb_tranzport -> Z)
  : device_attribute :=
  {| attr_name := name; attr_mode := S_IRUGO;
     attr_show := Some (show_value value); attr_store := None |}.

(** The macro [show_set_int(value)]. *)
Definition show_set_int (name : string) (value : usb_tranzport -> Z)
    (assign : Z -> usb_tranzport -> usb_tranzport) : device_attribute :=
  {| attr_name := name; attr_mode := Z.lor S_IWUSR S_IRUGO;
     attr_show := Some (show_value value);
     attr_store := Some (set_value assign) |}.

(** [t->compress_wheel = temp]: an [unsigned long] stored into an
    [unsigned char] keeps its low eight bits. *)
Definition assign_compress_wheel (temp : Z) (t : usb_tranzport)
  : usb_tranzport :=
  set_compress_wheel_field (temp mod 256) t.

Definition dev_attr_enable : device_attribute :=
  show_int "enable" enable.
Definition dev_attr_offline : device_attribute :=
  show_int "offline" offline.
Definition dev_attr_compress_wheel : device_attribute :=
  show_set_int "compress_wheel" compress_wheel assign_compress_wheel.

Definition show_enable := show_value enable.
Definition show_offline := show_value offline.
Definition show_compress_wheel := show_value compress_wheel.
Definition set_compress_wheel := set_value assign_compress_wheel.

End Attributes.

(** A reference reading of [strict_strtoul] for base 10, after the kernel's
    lib/vsprintf.c: at least one decimal digit, nothing else but one optional
    final newline, the value accumulated in a 64-bit [unsigned long]. *)

Definition digit_of (c : ascii) : option Z :=
  let n := Z.of_nat (nat_of_ascii c) in
  if decide (48 <= n <= 57) then Some (n - 48) else None.

Fixpoint simple_strtoul (cp : string) (acc : Z) : Z * string :=
  match cp with
  | EmptyString => (acc, cp)
  | String c rest =>
      match digit_of c with
      | Some v => simple_strtoul rest ((acc * 10 + v) mod 2 ^ 64)
      | None => (acc, cp)
      end
  end.

Definition strict_strtoul_10 (cp : string) (base : Z) : Z * Z :=
  if decide (String.length cp = 0%nat) then (- EINVAL, 0)
  else
    let '(val, tail) := simple_strtoul cp 0 in
    if decide (tail = cp) then (- EINVAL, 0)
    else if decide (tail = EmptyString) then (0, val)
    else if decide (tail = nl) then (0, val)
    else (- EINVAL, 0).

(** The last [n] elements of a list. *)
Definition lastn {A} (n : nat) (l : list A) : list A :=
  drop (length l - n)%nat l.

(** ** The transfer ring buffer

    The handle keeps the ring as [ring_buffer], [ring_head] and [ring_tail]
    (lines 129-131) and nothing else: no element count, no full flag. *)

Section Ring.

Local Open Scope nat_scope.

(** Capacity of the ring in frames (the [ring_buffer_size] parameter). *)
Variable N : nat.

(** Modelled from the spec: the ring operations, whose code lies beyond
    the available part of tranzport.c.  The spec gives: an "ordered
    sequence of up to N Command Frames", "with head (next write slot) and
    tail (next read slot) indices modulo N"; "head == tail means empty";
    push "if full, advances tail (drops oldest) then writes at head and
    advances head"; pop "returns none if empty; otherwise returns the frame
    at tail and advances tail".  For the ring to hold up to N frames with
    head == tail kept for empty, head and tail advance by one per frame
    written and per frame read or dropped, and the slot of an index is the
    index modulo N; the ring then holds head - tail frames.
    First [is_empty]. *)
Definition is_empty (d : usb_tranzport) : bool :=
  bool_decide (ring_head d = ring_tail d).

(** Modelled from the spec: [is_full], named but not defined there; the
    ring of "up to N" frames is full when it holds N of them. *)
Definition is_full (d : usb_tranzport) : bool :=
  bool_decide (ring_head d = ring_tail d + N).

(** Modelled from the spec: "advances tail (drops oldest)". *)
Definition drop_oldest (d : usb_tranzport) : usb_tranzport :=
  set_ring_tail (ring_tail d + 1) d.

(** Modelled from the spec: "writes at head and advances head". *)
Definition write_head (f : tranzport_cmd) (d : usb_tranzport) : usb_tranzport :=
  set_ring_head (ring_head d + 1)
    (set_ring_buffer (<[ring_head d mod N := f]> (ring_buffer d)) d).

(** Modelled from the spec: [push], "if full, advances tail (drops oldest)
    then writes at head and advances head". *)
Definition push (f : tranzport_cmd) (d : usb_tranzport) : usb_tranzport :=
  write_head f (if is_full d then drop_oldest d else d).

(** Modelled from the spec: [pop], "returns none if empty; otherwise
    returns the frame at tail and advances tail". *)
Definition pop (d : usb_tranzport) : option tranzport_cmd * usb_tranzport :=
  if is_empty d then (None, d)
  else (ring_buffer d !! (ring_tail d mod N),
        set_ring_tail (ring_tail d + 1) d).



(** Histories of ring operations, run on a handle. *)
Inductive ring_op :=
  | Push (f : tranzport_cmd)
  | Pop.

Definition step (d : usb_tranzport) (op : ring_op) : usb_tranzport :=
  match op with
  | Push f => push f d
  | Pop => (pop d).2
  end.

Definition run (ops : list ring_op) (d : usb_tranzport) : usb_tranzport :=
  foldl step d ops.

(** What a history says by itself, without any handle: the frames a queue
    of capacity N that drops its oldest frame would hold after it, and
    whether a push has occurred since the last pop that drained the queue
    (left it without a frame).  Both are read off the operations alone. *)
Definition account (st : list tranzport_cmd * bool) (op : ring_op)
  : list tranzport_cmd * bool :=
  match op with
  | Push f => (lastn N (st.1 ++ [f]), true)
  | Pop =>
      let q := drop 1 st.1 in
      (q, match q with [] => false | _ :: _ => st.2 end)
  end.

Definition history (ops : list ring_op) : list tranzport_cmd * bool :=
  foldl account ([], false) ops.

(** Well-formed ring state: room for at least one frame, a buffer of [N]
    slots, and between zero and N frames held. *)
Definition ring_wf (d : usb_tranzport) : Prop :=
  1 <= N /\ length (ring_buffer d) = N /\
  ring_tail d <= ring_head d /\ ring_head d <= ring_tail d + N.

(** The frames stored in the ring, oldest first: the slots of the indices
    from tail up to, not including, head. *)
Definition ring_count (d : usb_tranzport) : nat :=
  ring_head d - ring_tail d.

Definition contents (d : usb_tranzport) : list tranzport_cmd :=
  (fun k => ring_buffer d !!! ((ring_tail d + k) mod N)) <$> seq 0 (ring_count d).

End Ring.

(** ** usb_tranzport_interrupt_in_callback (lines 238-269 and beyond) *)

(** The fields of [struct urb] the callback reads. *)
Record urb := { status : Z; actual_length : Z }.

Definition device_gone (st : Z) : Prop :=
  st = - ENOENT \/ st = - ECONNRESET \/ st = - ESHUTDOWN.

#[global] Instance device_gone_dec st : Decision (device_gone st).
Proof. unfold device_gone; apply _. Defined.

Section InCallback.

(** The module parameters in force. *)
Variable p : module_params.

(** Modelled from the spec: how the callback marks the handle at its
    [exit] label, which lies beyond the available part of tranzport.c.  The
    callback takes the marking as an argument; the marking the spec
    describes is [quiesce], defined after this section, and the properties
    of the exit are stated for it. *)
Variable mark_quiescent : usb_tranzport -> usb_tranzport.

(** Modelled from the spec: the statements at the [exit] label, missing
    from the available source: "stop resubmitting and mark the handle
    quiescent", where to quiesce is to "stop accepting/submitting new
    transfers, wake blocked callers with failure": nothing is submitted,
    the handle is marked, and the callers sleeping on the handle's two wait
    queues are woken. *)
Definition exit_label (dev : usb_tranzport) : usb_tranzport * trace :=
  (mark_quiescent dev,
   [wake_up_interruptible (read_wait dev);
    wake_up_interruptible (write_wait dev)]).

(** Modelled from the spec: the statements at the [resubmit] label,
    missing from the available source: "resubmit immediately", "resubmit
    the inbound operation to sustain continuous polling". *)
Definition resubmit_label (dev : usb_tranzport) : usb_tranzport * trace :=
  (dev, [usb_submit_urb (interrupt_in_urb dev)]).

(** Modelled from the spec: the rest of the branch for a frame of eight
    bytes, missing from the available source: "push the frame into the
    ring buffer and wake any blocked reader". *)
Definition accept_frame (dev : usb_tranzport) : usb_tranzport * trace :=
  let frame := {| cmd := take 8 (interrupt_in_buffer dev) |} in
  (push (Z.to_nat (ring_buffer_size p)) frame dev,
   [wake_up_interruptible (read_wait dev)]).

Definition usb_tranzport_interrupt_in_callback (u : urb) (dev : usb_tranzport)
  : usb_tranzport * trace :=
  if decide (status u <> 0) then
    if decide (device_gone (status u)) then
      exit_label dev
    else
      let t1 := dbg_info p "%s: nonzero status received: %d\n" [status u] in
      let '(dev2, t2) := resubmit_label dev in
      (dev2, t1 ++ t2)
  else
    let '(dev1, t1) :=
      if decide (actual_length u <> 8) then
        (dev,
         [dev_warn "Urb length was %d bytes!!Do something intelligent\n"
            [actual_length u]])
      else
        let t0 :=
          dbg_info p "%s: received: %02x%02x%02x%02x%02x%02x%02x%02x\n"
            (take 8 (interrupt_in_buffer dev)) in
        let '(dev', t') := accept_frame dev in
        (dev', t0 ++ t') in
    let '(dev2, t2) := resubmit_label dev1 in
    (dev2, t1 ++ t2).


End InCallback.





(** ** Concrete data for the examples *)

(** A handle as probe leaves it for a ring of [n] slots: zeroed buffers,
    both ring indices at 0, the interface and the two URBs allocated. *)
Definition fresh_handle (n : nat) : usb_tranzport :=
  {| mtx := false; intf := 4096; open_count := 0;
     ring_buffer := replicate n zero_cmd; ring_head := 0; ring_tail := 0;
     read_wait := []; write_wait := [];
     interrupt_in_buffer := replicate 8 0;
     interrupt_in_endpoint := 4128; interrupt_in_urb := 8192;
     interrupt_in_interval := 10; interrupt_in_endpoint_size := 8;
     interrupt_in_running := 0; interrupt_in_done := 0;
     interrupt_out_buffer := replicate 34 0;
     interrupt_out_endpoint := 4160; interrupt_out_urb := 12288;
     interrupt_out_interval := 10; interrupt_out_endpoint_size := 8;
     interrupt_out_busy := 0;
     enable := 1; offline := 0; compress_wheel := 1 |}.

(** Four distinct reports. *)
Definition frame_A : tranzport_cmd := {| cmd := [65; 0; 0; 0; 0; 0; 0; 0] |}.
Definition frame_B : tranzport_cmd := {| cmd := [66; 0; 0; 0; 0; 0; 0; 0] |}.

(** All fields of the handle but [interrupt_in_running] agree. *)
Definition same_but_in_running (d d' : usb_tranzport) : Prop :=
  mtx d' = mtx d /\ intf d' = intf d /\ open_count d' = open_count d /\
  ring_buffer d' = ring_buffer d /\ ring_head d' = ring_head d /\
  ring_tail d' = ring_tail d /\ read_wait d' = read_wait d /\
  write_wait d' = write_wait d /\
  interrupt_in_buffer d' = interrupt_in_buffer d /\
  interrupt_in_endpoint d' = interrupt_in_endpoint d /\
  interrupt_in_urb d' = interrupt_in_urb d /\
  interrupt_in_interval d' = interrupt_in_interval d /\
  interrupt_in_endpoint_size d' = interrupt_in_endpoint_size d /\
  interrupt_in_done d' = interrupt_in_done d /\
  interrupt_out_buffer d' = interrupt_out_buffer d /\
  interrupt_out_endpoint d' = interrupt_out_endpoint d /\
  interrupt_out_urb d' = interrupt_out_urb d /\
  interrupt_out_interval d' = interrupt_out_interval d /\
  interrupt_out_endpoint_size d' = interrupt_out_endpoint_size d /\
  interrupt_out_busy d' = interrupt_out_busy d /\
  enable d' = enable d /\ offline d' = offline d /\
  compress_wheel d' = compress_wheel d.

(** All fields of the handle but [compress_wheel] agree. *)
Definition same_but_compress_wheel (d d' : usb_tranzport) : Prop :=
  set_compress_wheel_field (compress_wheel d) d' = d.

(** ** Permissions of the module parameters (lines 86-115)

    The third argument of each [module_param], keyed by parameter name. *)
Definition module_param_perm : list (string * Z) :=
  [ ("debug", Z.lor S_IRUGO S_IWUSR);
    ("ring_buffer_size", S_IRUGO);
    ("write_buffer_size", S_IRUGO);
    ("min_interrupt_in_interval", 0);
    ("min_interrupt_out_interval", 0) ]%string.

(** ** Successive calls of usb_tranzport_abort_transfers *)

(** The two halves of the shutdown routine's kernel calls, read on the
    handle it is given. *)
Definition kill_in_calls (dev : usb_tranzport) : trace :=
  if decide (interrupt_in_running dev <> 0 /\ intf dev <> NULL)
  then [usb_kill_urb (interrupt_in_urb dev)] else [].

Definition kill_out_calls (dev : usb_tranzport) : trace :=
  if decide (interrupt_out_busy dev <> 0 /\ intf dev <> NULL)
  then [usb_kill_urb (interrupt_out_urb dev)] else [].

(** [n] calls of the routine in succession, each on the handle the
    previous one left, with their kernel calls in order. *)
Fixpoint abort_transfers_n (n : nat) (dev : usb_tranzport)
  : usb_tranzport * trace :=
  match n with
  | O => (dev, [])
  | S n' =>
      let '(dev1, t1) := usb_tranzport_abort_transfers dev in
      let '(dev2, t2) := abort_transfers_n n' dev1 in
      (dev2, t1 ++ t2)
  end.

(** ** usb_tranzport_delete (lines 216-232) *)

(** The memory blocks the handle owns and [kfree] releases: the three
    buffers, which the handle models by their contents, and the handle
    itself. *)
Inductive owned :=
  | the_ring_buffer
  | the_interrupt_in_buffer
  | the_interrupt_out_buffer
  | the_handle.

(** Kernel calls of the delete routine: those of the shutdown routine it
    starts with, then sysfs removals and releases. *)
Inductive dcall :=
  | kernel (c : kcall)
  | device_remove_file (intf_dev : pointer) (attr : string)
  | usb_free_urb (urb : pointer)
  | kfree (block : owned).

Section Delete.

Variable strict_strtoul : string -> Z -> Z * Z.

(** The routine returns nothing and frees the handle, so its model is the
    sequence of its kernel calls. *)
Definition usb_tranzport_delete (dev : usb_tranzport) : list dcall :=
  let '(dev1, t0) := usb_tranzport_abort_transfers dev in
  let t1 :=
    if decide (intf dev1 <> NULL) then
      [ device_remove_file (intf dev1) (attr_name dev_attr_enable);
        device_remove_file (intf dev1) (attr_name dev_attr_offline);
        device_remove_file (intf dev1)
          (attr_name (dev_attr_compress_wheel strict_strtoul)) ]
    else [] in
  (kernel <$> t0) ++ t1 ++
  [ usb_free_urb (interrupt_in_urb dev1);
    usb_free_urb (interrupt_out_urb dev1);
    kfree the_ring_buffer;
    kfree the_interrupt_in_buffer;
    kfree the_interrupt_out_buffer;
    kfree the_handle ].

End Delete.

Definition is_release (c : dcall) : bool :=
  match c with usb_free_urb _ | kfree _ => true | _ => false end.

Definition removed_file (c : dcall) : option string :=
  match c with device_remove_file _ a => Some a | _ => None end.

Definition is_warn (c : kcall) : bool :=
  match c with dev_warn _ _ => true | _ => false end.

(** * Properties *)

(** ** Load-time parameters *)

(** C8: the load-time defaults are a ring of 1000 reports, a write buffer of
    34 bytes, minimum inbound and outbound intervals of 10 (documented as
    milliseconds) and debug output off: with the defaults [dbg_info] logs
    nothing. *)
Theorem default_params_values :
  ring_buffer_size default_params = 1000 /\
  write_buffer_size default_params = 34 /\
  min_interrupt_in_interval default_params = 10 /\
  min_interrupt_out_interval default_params = 10 /\
  debug default_params = 0 /\
  (forall format args, dbg_info default_params format args = []) /\
  ("min_interrupt_in_interval"%string,
   "Minimum interrupt in interval in ms"%string) ∈ parm_desc /\
  ("min_interrupt_out_interval"%string,
   "Minimum interrupt out interval in ms"%string) ∈ parm_desc.
Proof.
  repeat split; try reflexivity.
  - unfold parm_desc. do 3 apply list_elem_of_further. apply list_elem_of_here.
  - unfold parm_desc. do 4 apply list_elem_of_further. apply list_elem_of_here.
Qed.

(** ** usb_tranzport_abort_transfers *)

Lemma set_interrupt_in_running_same v d :
  same_but_in_running d (set_interrupt_in_running v d).
Proof. by repeat split. Qed.

Lemma same_but_in_running_refl d : same_but_in_running d d.
Proof. by repeat split. Qed.

Lemma abort_transfers_handle dev :
  (usb_tranzport_abort_transfers dev).1 =
  if decide (interrupt_in_running dev = 0) then dev
  else set_interrupt_in_running 0 dev.
Proof.
  unfold usb_tranzport_abort_transfers.
  by destruct (decide (interrupt_in_running dev = 0)).
Qed.

(** C10: the handle returned by the shutdown routine differs from the one
    it was given in [interrupt_in_running] at most, which ends at 0; every
    other field, [interrupt_out_busy], the ring indices, the open count and
    the status flags among them, is as before.  A second call in succession
    returns the handle of the first unchanged. *)
Theorem abort_transfers_frame (dev : usb_tranzport) :
  let dev' := (usb_tranzport_abort_transfers dev).1 in
  same_but_in_running dev dev' /\
  interrupt_in_running dev' = 0 /\
  dev' = (if decide (interrupt_in_running dev = 0) then dev
          else set_interrupt_in_running 0 dev) /\
  (usb_tranzport_abort_transfers dev').1 = dev'.
Proof.
  cbn zeta. rewrite !abort_transfers_handle.
  destruct (decide (interrupt_in_running dev = 0)) as [Hz|Hnz].
  - rewrite decide_True by done.
    split_and!; [apply same_but_in_running_refl | done | done | done].
  - rewrite decide_True by done.
    split_and!; [apply set_interrupt_in_running_same | done | done | done].
Qed.

(** X1: the kernel calls of the shutdown routine: the inbound URB is killed
    exactly when the inbound loop was running and the interface is still
    attached, the outbound URB exactly when a write was in flight and the
    interface is still attached; nothing else is called. *)
Lemma abort_transfers_trace dev :
  (usb_tranzport_abort_transfers dev).2 =
  (if decide (interrupt_in_running dev <> 0 /\ intf dev <> NULL)
   then [usb_kill_urb (interrupt_in_urb dev)] else []) ++
  (if decide (interrupt_out_busy dev <> 0 /\ intf dev <> NULL)
   then [usb_kill_urb (interrupt_out_urb dev)] else []).
Proof.
  unfold usb_tranzport_abort_transfers.
  destruct (decide (interrupt_in_running dev = 0)); cbn;
    repeat case_decide; try done; intuition congruence.
Qed.

(** ** Sysfs attributes *)

(** Text written by [show] reads back, through [strict_strtoul], as the
    value of the field: checked on every value of an [unsigned char]. *)
Lemma sprintf_d_nl_reads_back v :
  0 <= v < 256 -> strict_strtoul_10 (sprintf_d_nl v) 10 = (0, v).
Proof.
  intros Hv.
  assert (Hall : forallb (fun n => bool_decide
            (strict_strtoul_10 (sprintf_d_nl (Z.of_nat n)) 10 = (0, Z.of_nat n)))
            (seq 0 256) = true) by (vm_compute; reflexivity).
  rewrite forallb_forall in Hall.
  assert (Hin : In (Z.to_nat v) (seq 0 256)) by (apply in_seq; lia).
  apply Hall in Hin. rewrite Z2Nat.id in Hin by lia.
  by apply bool_decide_eq_true in Hin.
Qed.

(** C7: [enable] and [offline] are declared with mode [S_IRUGO], a show
    accessor and no store accessor; [compress_wheel] with mode
    [S_IWUSR | S_IRUGO], a show and a store accessor.  Each show accessor
    prints the current value of its own field of the handle, in decimal,
    followed by a newline, and returns the length of that text; for a field
    holding an [unsigned char] value the text reads back as that value. *)
Theorem status_attributes_access (strict_strtoul : string -> Z -> Z * Z) :
  (attr_mode dev_attr_enable = S_IRUGO /\
   Z.land (attr_mode dev_attr_enable) S_IWUGO = 0 /\
   attr_show dev_attr_enable = Some show_enable /\
   attr_store dev_attr_enable = None) /\
  (attr_mode dev_attr_offline = S_IRUGO /\
   Z.land (attr_mode dev_attr_offline) S_IWUGO = 0 /\
   attr_show dev_attr_offline = Some show_offline /\
   attr_store dev_attr_offline = None) /\
  (attr_mode (dev_attr_compress_wheel strict_strtoul) = Z.lor S_IWUSR S_IRUGO /\
   Z.land (attr_mode (dev_attr_compress_wheel strict_strtoul)) S_IRUGO = S_IRUGO /\
   Z.land (attr_mode (dev_attr_compress_wheel strict_strtoul)) S_IWUSR = S_IWUSR /\
   attr_show (dev_attr_compress_wheel strict_strtoul) = Some show_compress_wheel /\
   attr_store (dev_attr_compress_wheel strict_strtoul)
     = Some (set_compress_wheel strict_strtoul)) /\
  (forall t,
     (show_enable t).2 = sprintf_d_nl (enable t) /\
     (show_offline t).2 = sprintf_d_nl (offline t) /\
     (show_compress_wheel t).2 = sprintf_d_nl (compress_wheel t) /\
     (show_enable t).1 = Z.of_nat (String.length (show_enable t).2) /\
     (show_offline t).1 = Z.of_nat (String.length (show_offline t).2) /\
     (show_compress_wheel t).1
       = Z.of_nat (String.length (show_compress_wheel t).2)) /\
  (forall t,
     (0 <= enable t < 256 ->
      strict_strtoul_10 (show_enable t).2 10 = (0, enable t)) /\
     (0 <= offline t < 256 ->
      strict_strtoul_10 (show_offline t).2 10 = (0, offline t)) /\
     (0 <= compress_wheel t < 256 ->
      strict_strtoul_10 (show_compress_wheel t).2 10 = (0, compress_wheel t))).
Proof.
  split_and!; try reflexivity.
  - intros t. by split_and!.
  - intros t. split_and!; intros Hv; by apply sprintf_d_nl_reads_back.
Qed.

(** C7 on a fresh handle, whose [enable] is 1 and [compress_wheel] is 1:
    the text shown for each reads back as the field. *)
Lemma status_attributes_access_witness :
  strict_strtoul_10 (show_enable (fresh_handle 3)).2 10 = (0, 1) /\
  strict_strtoul_10 (show_offline (fresh_handle 3)).2 10 = (0, 0) /\
  strict_strtoul_10 (show_compress_wheel (fresh_handle 3)).2 10 = (0, 1).
Proof.
  pose proof (status_attributes_access strict_strtoul_10)
    as (_ & _ & _ & _ & Hback).
  destruct (Hback (fresh_handle 3)) as (He & Ho & Hc).
  split_and!; [apply He | apply Ho | apply Hc]; cbn; lia.
Defined.

Example show_enable_fresh :
  show_enable (fresh_handle 3) = (2, String "1" nl).
Proof. reflexivity. Qed.

Example show_compress_wheel_200 :
  show_compress_wheel (set_compress_wheel_field 200 (fresh_handle 3))
  = (4, ("200" ++ nl)%string).
Proof. reflexivity. Qed.

(** C9: a write to [compress_wheel] whose text [strict_strtoul] rejects
    returns [-EINVAL] and leaves the handle, hence the field, as it was; a
    write whose text parses to [v] returns [count] and stores [v] reduced
    modulo 256 in [compress_wheel], whatever [v] is, changing no other
    field. *)
Theorem set_compress_wheel_spec (strict_strtoul : string -> Z -> Z * Z)
    (t : usb_tranzport) (buf : string) (count : Z) :
  ((strict_strtoul buf 10).1 <> 0 ->
     set_compress_wheel strict_strtoul t buf count = (- EINVAL, t)) /\
  (forall v, strict_strtoul buf 10 = (0, v) ->
     let r := set_compress_wheel strict_strtoul t buf count in
     r.1 = count /\
     compress_wheel r.2 = v mod 256 /\
     0 <= compress_wheel r.2 < 256 /\
     same_but_compress_wheel t r.2).
Proof.
  unfold set_compress_wheel, set_value. split.
  - destruct (strict_strtoul buf 10) as [rc temp]; cbn. intros Hrc.
    by rewrite decide_False.
  - intros v ->. cbn. split_and!; try done.
    + apply Z.mod_pos_bound. lia.
    + apply Z.mod_pos_bound. lia.
    + unfold same_but_compress_wheel. by destruct t.
Qed.

(** C9 at concrete inputs, with the reference reading of [strict_strtoul]:
    "x1" is rejected; "7" followed by a newline stores 7, a value that is
    neither 0 nor 1; "300" stores 300 mod 256 = 44. *)
Lemma set_compress_wheel_spec_witness :
  set_compress_wheel strict_strtoul_10 (fresh_handle 3) "x1" 2
    = (- EINVAL, fresh_handle 3) /\
  compress_wheel
    (set_compress_wheel strict_strtoul_10 (fresh_handle 3) (String "7" nl) 2).2
    = 7 /\
  compress_wheel
    (set_compress_wheel strict_strtoul_10 (fresh_handle 3) "300" 3).2 = 44.
Proof.
  split_and!.
  - apply (set_compress_wheel_spec strict_strtoul_10 (fresh_handle 3) "x1" 2).
    vm_compute. discriminate.
  - pose proof (proj2 (set_compress_wheel_spec strict_strtoul_10
                         (fresh_handle 3) (String "7" nl) 2) 7 eq_refl)
      as (_ & H & _).
    exact H.
  - pose proof (proj2 (set_compress_wheel_spec strict_strtoul_10
                         (fresh_handle 3) "300" 3) 300 eq_refl)
      as (_ & H & _).
    exact H.
Defined.

(** ** usb_tranzport_interrupt_in_callback *)

Section InCallbackFacts.

Variable p : module_params.
Variable mark_quiescent : usb_tranzport -> usb_tranzport.

Abbreviation callback := (usb_tranzport_interrupt_in_callback p mark_quiescent).
Abbreviation nonzero_status_format := "%s: nonzero status received: %d\n"%string.








End InCallbackFacts.



(** C4: on a completion with status 0 whose length is not 8 the callback
    warns with the length received, leaves the handle, and with it the ring
    buffer and both ring indices, exactly as it was, and goes on to resubmit
    the inbound URB; it does not take the exit that marks the handle
    quiescent. *)
Theorem in_callback_bad_length (p : module_params)
    (mark_quiescent : usb_tranzport -> usb_tranzport)
    (u : urb) (dev : usb_tranzport) :
  status u = 0 -> actual_length u <> 8 ->
  usb_tranzport_interrupt_in_callback p mark_quiescent u dev =
    (dev,
     [dev_warn "Urb length was %d bytes!!Do something intelligent\n"
        [actual_length u];
      usb_submit_urb (interrupt_in_urb dev)]).
Proof.
  intros Hst Hlen. unfold usb_tranzport_interrupt_in_callback.
  rewrite decide_False by (intros H; by apply H).
  by rewrite decide_True.
Qed.

Lemma in_callback_bad_length_witness :
  usb_tranzport_interrupt_in_callback default_params
      (set_interrupt_in_running 0)
      {| status := 0; actual_length := 4 |} (fresh_handle 3)
  = (fresh_handle 3,
     [dev_warn "Urb length was %d bytes!!Do something intelligent\n" [4];
      usb_submit_urb 8192]).
Proof.
  apply (in_callback_bad_length default_params (set_interrupt_in_running 0)
           {| status := 0; actual_length := 4 |} (fresh_handle 3)).
  - reflexivity.
  - cbn; lia.
Defined.

(** ** The transfer ring buffer *)

(** Two indices less than a ring size apart fall in different slots. *)
Lemma mod_apart (a b n : nat) :
  (a < b -> b < a + n -> a mod n <> b mod n)%nat.
Proof.
  intros Hab Hbn E.
  pose proof (Nat.div_mod_eq a n) as Ha.
  pose proof (Nat.div_mod_eq b n) as Hb.
  rewrite E in Ha.
  assert (Hq : (a / n < b / n)%nat) by nia.
  nia.
Qed.

Section RingFacts.

Local Open Scope nat_scope.

Variable N : nat.

Lemma length_contents d : length (contents N d) = ring_count d.
Proof. unfold contents. by rewrite length_fmap, length_seq. Qed.

Lemma contents_lookup d k :
  contents N d !! k =
  if decide (k < ring_count d)
  then Some (ring_buffer d !!! ((ring_tail d + k) mod N))
  else None.
Proof.
  unfold contents. rewrite list_lookup_fmap. case_decide.
  - by rewrite lookup_seq_lt.
  - by rewrite lookup_seq_ge by lia.
Qed.

Lemma length_contents_le d : ring_wf N d -> length (contents N d) <= N.
Proof. intros (? & ? & ? & ?). rewrite length_contents. unfold ring_count. lia. Qed.

Lemma is_empty_count d :
  ring_wf N d -> is_empty d = bool_decide (ring_count d = 0).
Proof.
  intros (? & ? & ? & ?). unfold is_empty, ring_count.
  apply bool_decide_ext. lia.
Qed.

Lemma is_full_count d :
  ring_wf N d -> is_full N d = bool_decide (ring_count d = N).
Proof.
  intros (? & ? & ? & ?). unfold is_full, ring_count.
  apply bool_decide_ext. lia.
Qed.

Lemma is_empty_contents d :
  ring_wf N d -> is_empty d = true <-> contents N d = [].
Proof.
  intros Hwf. rewrite is_empty_count, bool_decide_eq_true by done.
  rewrite <- length_contents. split.
  - apply nil_length_inv.
  - by intros ->.
Qed.

Lemma ring_wf_push f d : ring_wf N d -> ring_wf N (push N f d).
Proof.
  intros (? & ? & ? & ?). unfold ring_wf, push, write_head, drop_oldest, is_full.
  case_bool_decide; cbn; rewrite length_insert; lia.
Qed.

Lemma ring_wf_pop d : ring_wf N d -> ring_wf N (pop N d).2.
Proof.
  intros (? & ? & ? & ?). unfold ring_wf, pop, is_empty.
  case_bool_decide; cbn; lia.
Qed.


Lemma contents_push f d :
  ring_wf N d ->
  contents N (push N f d) =
    (if is_full N d then drop 1 (contents N d) else contents N d) ++ [f].
Proof.
  intros Hwf. apply list_eq. intros k.
  rewrite contents_lookup, lookup_app.
  destruct Hwf as (HN & Hlen & Hth & Hht).
  assert (Hslot : ring_head d mod N < length (ring_buffer d))
    by (rewrite Hlen; apply Nat.mod_upper_bound; lia).
  unfold push, is_full. case_bool_decide as Hfull.
  - rewrite lookup_drop, contents_lookup, length_drop, length_contents.
    unfold ring_count, write_head, drop_oldest; cbn.
    destruct (decide (k < N - 1)) as [Hk|Hk].
    + rewrite !decide_True by lia.
      rewrite list_lookup_total_insert_ne
        by (apply not_eq_sym, mod_apart; lia).
      by replace (ring_tail d + 1 + k) with (ring_tail d + S k) by lia.
    + rewrite (decide_False (P := S k < _)) by lia.
      destruct (decide (k = N - 1)) as [->|Hk'].
      * rewrite decide_True by lia.
        replace (ring_tail d + 1 + (N - 1)) with (ring_head d) by lia.
        rewrite list_lookup_total_insert_eq by done.
        by replace (N - 1 - (ring_head d - ring_tail d - 1)) with 0 by lia.
      * rewrite decide_False by lia.
        symmetry. apply lookup_ge_None. cbn. lia.
  - rewrite contents_lookup, length_contents.
    unfold ring_count, write_head; cbn.
    destruct (decide (k < ring_head d - ring_tail d)) as [Hk|Hk].
    + rewrite decide_True by lia.
      rewrite list_lookup_total_insert_ne
        by (apply not_eq_sym, mod_apart; lia).
      done.
    + destruct (decide (k = ring_head d - ring_tail d)) as [->|Hk'].
      * rewrite decide_True by lia.
        replace (ring_tail d + (ring_head d - ring_tail d))
          with (ring_head d) by lia.
        rewrite list_lookup_total_insert_eq by done.
        by rewrite Nat.sub_diag.
      * rewrite decide_False by lia.
        symmetry. apply lookup_ge_None. cbn. lia.
Qed.

Lemma pop_contents d :
  ring_wf N d ->
  (pop N d).1 = contents N d !! 0 /\
  contents N (pop N d).2 = drop 1 (contents N d).
Proof.
  intros Hwf. unfold pop. destruct (is_empty d) eqn:He.
  - apply (is_empty_contents d Hwf) in He. cbn. by rewrite He.
  - rewrite (is_empty_count d Hwf) in He. apply bool_decide_eq_false in He.
    destruct Hwf as (HN & Hlen & Hth & Hht). unfold ring_count in He.
    cbn [fst snd]. split.
    + rewrite contents_lookup. unfold ring_count.
      rewrite decide_True by lia. rewrite Nat.add_0_r.
      apply list_lookup_lookup_total_lt.
      rewrite Hlen. apply Nat.mod_upper_bound. lia.
    + apply list_eq. intros k.
      rewrite lookup_drop, !contents_lookup.
      unfold ring_count. cbn [ring_head ring_tail ring_buffer set_ring_tail].
      destruct (decide (1 + k < ring_head d - ring_tail d)).
      * rewrite decide_True by lia.
        by replace (ring_tail d + 1 + k) with (ring_tail d + (1 + k)) by lia.
      * rewrite decide_False by lia. done.
Qed.

(** A queue of capacity [n] that drops its oldest frame, on lists. *)
Lemma lastn_all {A} (l : list A) n : length l <= n -> lastn n l = l.
Proof.
  intros Hl. unfold lastn. by replace (length l - n) with 0 by lia.
Qed.

Lemma lastn_snoc_full {A} (c : list A) (f : A) n :
  1 <= n -> length c = n -> lastn n (c ++ [f]) = drop 1 c ++ [f].
Proof.
  intros Hn Hc. unfold lastn. rewrite length_app. cbn [length].
  replace (length c + 1 - n) with 1 by lia.
  destruct c; [cbn in Hc; lia|done].
Qed.


Lemma contents_push_lastn f d :
  ring_wf N d -> contents N (push N f d) = lastn N (contents N d ++ [f]).
Proof.
  intros Hwf. rewrite contents_push by done.
  rewrite (is_full_count d Hwf), <- length_contents.
  pose proof (length_contents_le d Hwf).
  case_bool_decide as Hfull.
  - rewrite lastn_snoc_full; [done|by destruct Hwf|done].
  - rewrite lastn_all; [done|]. rewrite length_app. cbn. lia.
Qed.



(** The handle after a history holds the frames the history accounts for. *)
Lemma run_snoc ops op d : run N (ops ++ [op]) d = step N (run N ops d) op.
Proof. unfold run. by rewrite foldl_app. Qed.

Lemma history_snoc ops op :
  history N (ops ++ [op]) = account N (history N ops) op.
Proof. unfold history. by rewrite foldl_app. Qed.

Lemma run_contents ops d :
  ring_wf N d -> is_empty d = true ->
  ring_wf N (run N ops d) /\
  contents N (run N ops d) = (history N ops).1.
Proof.
  intros Hwf He.
  induction ops as [|op ops [IHwf IHc]] using rev_ind.
  - split; [done|]. by apply is_empty_contents.
  - rewrite run_snoc, history_snoc.
    destruct op as [f|]; cbn [step account fst].
    + split; [by apply ring_wf_push|].
      by rewrite contents_push_lastn, IHc.
    + split; [by apply ring_wf_pop|].
      destruct (pop_contents _ IHwf) as [_ Hd]. by rewrite Hd, IHc.
Qed.

Lemma lastn_snoc_not_nil {A} (q : list A) (f : A) n :
  1 <= n -> lastn n (q ++ [f]) <> [].
Proof.
  intros Hn E. apply (f_equal length) in E.
  unfold lastn in E. rewrite length_drop, length_app in E. cbn in E. lia.
Qed.

Lemma history_flag ops :
  1 <= N -> (history N ops).2 = false <-> (history N ops).1 = [].
Proof.
  intros HN. induction ops as [|op ops IH] using rev_ind; [done|].
  rewrite history_snoc.
  destruct (history N ops) as [q b]; cbn [fst snd] in IH.
  destruct op as [f|]; cbn [account fst snd].
  - split; [done|]. intros E. by apply lastn_snoc_not_nil in E.
  - destruct (drop 1 q) as [|x q'] eqn:Hq; [done|].
    split; [|done]. intros ->.
    assert (q = []) as -> by (by apply IH). done.
Qed.

End RingFacts.

Lemma fresh_handle_wf (n : nat) : (1 <= n)%nat -> ring_wf n (fresh_handle n).
Proof.
  intros Hn. unfold ring_wf. cbn. rewrite length_replicate. lia.
Qed.

(** C5: on an empty ring, pushing a frame and popping returns that frame,
    and the ring is empty again. *)
Theorem push_pop_round_trip (N : nat) (d : usb_tranzport) (f : tranzport_cmd) :
  ring_wf N d -> is_empty d = true ->
  (pop N (push N f d)).1 = Some f /\
  is_empty (pop N (push N f d)).2 = true.
Proof.
  intros Hwf He.
  pose proof (ring_wf_push N f d Hwf) as Hwf'.
  assert (Hc : contents N (push N f d) = [f]).
  { rewrite contents_push_lastn by done.
    apply (is_empty_contents N d Hwf) in He as ->.
    apply lastn_all. destruct Hwf as [HN _]. cbn. lia. }
  destruct (pop_contents N _ Hwf') as [Hr Hd]. split.
  - by rewrite Hr, Hc.
  - apply (is_empty_contents N _ (ring_wf_pop N _ Hwf')).
    by rewrite Hd, Hc.
Qed.

(** C5 on the ring of the default size, 1000 slots. *)
Lemma push_pop_round_trip_witness :
  (pop 1000 (push 1000 frame_A (fresh_handle 1000))).1 = Some frame_A /\
  is_empty (pop 1000 (push 1000 frame_A (fresh_handle 1000))).2 = true.
Proof.
  apply (push_pop_round_trip 1000 (fresh_handle 1000) frame_A).
  - apply fresh_handle_wf. lia.
  - reflexivity.
Defined.



(** C6: after any history of pushes and pops that starts from an empty
    ring, the ring holds exactly the frames the history accounts for; it is
    empty exactly when no push has occurred since the last pop that drained
    it, and exactly when [ring_head] equals [ring_tail]. *)
Theorem is_empty_iff_no_push_since_drained (N : nat) (d : usb_tranzport)
    (ops : list ring_op) :
  ring_wf N d -> is_empty d = true ->
  contents N (run N ops d) = (history N ops).1 /\
  (is_empty (run N ops d) = true <-> (history N ops).2 = false) /\
  (is_empty (run N ops d) = true <->
   ring_head (run N ops d) = ring_tail (run N ops d)).
Proof.
  intros Hwf He.
  destruct (run_contents N ops d Hwf He) as [Hwf' Hc].
  split_and!; [done| |].
  - rewrite (is_empty_contents N _ Hwf'), Hc.
    symmetry. apply history_flag. by destruct Hwf.
  - unfold is_empty. apply bool_decide_eq_true.
Qed.

(** C6 on histories over a ring of capacity three: one that ends drained,
    one that ends with a frame unread, and one whose last pop leaves a
    frame behind. *)
Lemma is_empty_iff_no_push_since_drained_witness :
  is_empty (run 3 [Push frame_A; Push frame_B; Pop; Pop]
              (fresh_handle 3)) = true /\
  is_empty (run 3 [Push frame_A; Pop; Pop; Push frame_B]
              (fresh_handle 3)) <> true /\
  is_empty (run 3 [Push frame_A; Push frame_B; Pop]
              (fresh_handle 3)) <> true.
Proof.
  split_and!.
  - apply (is_empty_iff_no_push_since_drained 3 (fresh_handle 3)
             [Push frame_A; Push frame_B; Pop; Pop]).
    + apply fresh_handle_wf. lia.
    + reflexivity.
    + reflexivity.
  - intros Hempty.
    apply (is_empty_iff_no_push_since_drained 3 (fresh_handle 3)
             [Push frame_A; Pop; Pop; Push frame_B]) in Hempty.
    + vm_compute in Hempty. discriminate.
    + apply fresh_handle_wf. lia.
    + reflexivity.
  - intros Hempty.
    apply (is_empty_iff_no_push_since_drained 3 (fresh_handle 3)
             [Push frame_A; Push frame_B; Pop]) in Hempty.
    + vm_compute in Hempty. discriminate.
    + apply fresh_handle_wf. lia.
    + reflexivity.
Defined.

(** * Further properties of the code *)

(** ** The shutdown routine, repeated and inside delete *)

Lemma abort_transfers_eq dev :
  usb_tranzport_abort_transfers dev =
  (if decide (interrupt_in_running dev = 0) then dev
   else set_interrupt_in_running 0 dev,
   kill_in_calls dev ++ kill_out_calls dev).
Proof.
  unfold usb_tranzport_abort_transfers, kill_in_calls, kill_out_calls.
  destruct (decide (interrupt_in_running dev = 0)); cbn;
    repeat case_decide; try done; intuition congruence.
Qed.

Lemma kill_in_calls_stopped dev :
  interrupt_in_running dev = 0 -> kill_in_calls dev = [].
Proof. intros H. unfold kill_in_calls. rewrite decide_False; [done|]. tauto. Qed.

Lemma abort_transfers_n_stopped n dev :
  interrupt_in_running dev = 0 ->
  abort_transfers_n n dev = (dev, mjoin (replicate n (kill_out_calls dev))).
Proof.
  intros Hz. induction n as [|n IH]; [done|].
  cbn [abort_transfers_n]. rewrite abort_transfers_eq, decide_True by done.
  rewrite IH, kill_in_calls_stopped by done. done.
Qed.

(** X2: over any number of successive calls the inbound URB is killed by
    the first call at most, while the outbound URB is killed again by every
    call as long as a write is in flight and the interface is attached: the
    routine clears [interrupt_in_running] but never [interrupt_out_busy].
    The handle after all the calls is the handle after the first. *)
Theorem abort_transfers_repeated (n : nat) (dev : usb_tranzport) :
  abort_transfers_n (S n) dev =
  ((usb_tranzport_abort_transfers dev).1,
   kill_in_calls dev ++ mjoin (replicate (S n) (kill_out_calls dev))).
Proof.
  cbn [abort_transfers_n]. rewrite abort_transfers_eq. cbn [fst].
  set (dev1 := if decide (interrupt_in_running dev = 0) then dev
               else set_interrupt_in_running 0 dev).
  assert (Hz : interrupt_in_running dev1 = 0)
    by (subst dev1; by case_decide).
  assert (Hout : kill_out_calls dev1 = kill_out_calls dev)
    by (subst dev1; by case_decide).
  rewrite abort_transfers_n_stopped, Hout by done.
  cbn. by rewrite <- (assoc_L (++)).
Qed.

Example abort_transfers_three_times :
  let dev := {| mtx := false; intf := 4096; open_count := 1;
                ring_buffer := replicate 3 zero_cmd;
                ring_head := 0; ring_tail := 0;
                read_wait := []; write_wait := [];
                interrupt_in_buffer := replicate 8 0;
                interrupt_in_endpoint := 4128; interrupt_in_urb := 8192;
                interrupt_in_interval := 10; interrupt_in_endpoint_size := 8;
                interrupt_in_running := 1; interrupt_in_done := 0;
                interrupt_out_buffer := replicate 34 0;
                interrupt_out_endpoint := 4160; interrupt_out_urb := 12288;
                interrupt_out_interval := 10;
                interrupt_out_endpoint_size := 8;
                interrupt_out_busy := 1;
                enable := 1; offline := 0; compress_wheel := 1 |} in
  (abort_transfers_n 3 dev).2 =
  [usb_kill_urb 8192; usb_kill_urb 12288; usb_kill_urb 12288;
   usb_kill_urb 12288].
Proof. reflexivity. Qed.

Section DeleteFacts.

Variable strict_strtoul : string -> Z -> Z * Z.

Abbreviation delete := (usb_tranzport_delete strict_strtoul).

(** The six releases that end the routine. *)
Abbreviation releases dev :=
  [ usb_free_urb (interrupt_in_urb dev);
    usb_free_urb (interrupt_out_urb dev);
    kfree the_ring_buffer;
    kfree the_interrupt_in_buffer;
    kfree the_interrupt_out_buffer;
    kfree the_handle ].

Abbreviation removals dev :=
  (if decide (intf dev <> NULL) then
     [ device_remove_file (intf dev) "enable";
       device_remove_file (intf dev) "offline";
       device_remove_file (intf dev) "compress_wheel" ]
   else [])%string.

Lemma delete_eq dev :
  delete dev =
  (kernel <$> (kill_in_calls dev ++ kill_out_calls dev))
    ++ removals dev ++ releases dev.
Proof.
  unfold usb_tranzport_delete. rewrite abort_transfers_eq.
  by destruct (decide (interrupt_in_running dev = 0)).
Qed.

Lemma filter_release_kernel (t : trace) :
  filter is_release (kernel <$> t) = [].
Proof. by induction t as [|c t IH]. Qed.

Lemma omap_removed_kernel (t : trace) :
  omap removed_file (kernel <$> t) = [].
Proof. by induction t as [|c t IH]. Qed.

Lemma length_kill_calls dev :
  (length (kill_in_calls dev ++ kill_out_calls dev) <= 2)%nat.
Proof.
  unfold kill_in_calls, kill_out_calls. repeat case_decide; cbn; lia.
Qed.

(** X3: whatever the state of the handle, delete releases the inbound URB,
    the outbound URB, the ring buffer, the two transfer buffers and the
    handle, each once, in this order, as its last six calls: nothing is
    released before the URBs have been killed and the sysfs files removed,
    and the handle goes last. *)
Theorem delete_releases_once_and_last (dev : usb_tranzport) :
  filter is_release (delete dev) = releases dev /\
  lastn 6 (delete dev) = releases dev /\
  last (delete dev) = Some (kfree the_handle).
Proof.
  rewrite delete_eq. split_and!.
  - rewrite !filter_app, filter_release_kernel.
    by case_decide.
  - unfold lastn. rewrite (assoc_L (++)), length_app.
    rewrite drop_app_length'; [done|]. cbn. lia.
  - rewrite (assoc_L (++)).
    change (releases dev) with
      ([usb_free_urb (interrupt_in_urb dev);
        usb_free_urb (interrupt_out_urb dev); kfree the_ring_buffer;
        kfree the_interrupt_in_buffer; kfree the_interrupt_out_buffer]
       ++ [kfree the_handle]).
    by rewrite (assoc_L (++)), last_snoc.
Qed.

(** X4: delete removes the sysfs files of exactly the three attributes the
    driver declares, each once, when the interface is still attached, and
    none of them when it is not. *)
Theorem delete_removes_declared_attributes (dev : usb_tranzport) :
  omap removed_file (delete dev) =
    (if decide (intf dev = NULL) then []
     else ["enable"; "offline"; "compress_wheel"]%string) /\
  attr_name <$> [ dev_attr_enable; dev_attr_offline;
                  dev_attr_compress_wheel strict_strtoul ]
    = ["enable"; "offline"; "compress_wheel"]%string.
Proof.
  split; [|done].
  rewrite delete_eq, !omap_app, omap_removed_kernel.
  destruct (decide (intf dev = NULL)) as [Hn|Hn].
  - by rewrite decide_False by tauto.
  - by rewrite decide_True.
Qed.

(** X5: once the interface pointer is NULL (the device has gone), delete
    makes no call on a URB other than freeing it and no sysfs call: its
    calls are the six releases and nothing else. *)
Theorem delete_after_disconnect (dev : usb_tranzport) :
  intf dev = NULL -> delete dev = releases dev.
Proof.
  intros Hn. rewrite delete_eq.
  unfold kill_in_calls, kill_out_calls.
  rewrite !decide_False by tauto. done.
Qed.


End DeleteFacts.

Lemma delete_after_disconnect_witness :
  usb_tranzport_delete strict_strtoul_10
    {| mtx := false; intf := NULL; open_count := 0;
       ring_buffer := replicate 3 zero_cmd; ring_head := 1; ring_tail := 0;
       read_wait := []; write_wait := [];
       interrupt_in_buffer := replicate 8 0;
       interrupt_in_endpoint := 4128; interrupt_in_urb := 8192;
       interrupt_in_interval := 10; interrupt_in_endpoint_size := 8;
       interrupt_in_running := 1; interrupt_in_done := 0;
       interrupt_out_buffer := replicate 34 0;
       interrupt_out_endpoint := 4160; interrupt_out_urb := 12288;
       interrupt_out_interval := 10; interrupt_out_endpoint_size := 8;
       interrupt_out_busy := 1;
       enable := 1; offline := 0; compress_wheel := 1 |}
  = [ usb_free_urb 8192; usb_free_urb 12288; kfree the_ring_buffer;
      kfree the_interrupt_in_buffer; kfree the_interrupt_out_buffer;
      kfree the_handle ].
Proof.
  apply (delete_after_disconnect strict_strtoul_10). reflexivity.
Defined.

(** ** Sysfs attributes: how reads and writes compose *)

Section AttributeFacts.

Variable strict_strtoul : string -> Z -> Z * Z.

Abbreviation store := (set_compress_wheel strict_strtoul).

Lemma store_eq t buf count :
  store t buf count =
  if decide ((strict_strtoul buf 10).1 = 0)
  then (count, set_compress_wheel_field ((strict_strtoul buf 10).2 mod 256) t)
  else (- EINVAL, t).
Proof.
  unfold set_compress_wheel, set_value, assign_compress_wheel.
  by destruct (strict_strtoul buf 10).
Qed.

Lemma set_compress_wheel_field_twice v w t :
  set_compress_wheel_field w (set_compress_wheel_field v t)
  = set_compress_wheel_field w t.
Proof. done. Qed.

Lemma set_compress_wheel_field_same t :
  set_compress_wheel_field (compress_wheel t) t = t.
Proof. by destruct t. Qed.

(** X6: the last successful write wins.  A write that parses gives the
    same return value and the same handle whether or not another write,
    accepted or rejected, came before it. *)
Theorem store_last_write_wins (t : usb_tranzport) (buf1 buf2 : string)
    (count1 count2 : Z) :
  (strict_strtoul buf2 10).1 = 0 ->
  store (store t buf1 count1).2 buf2 count2 = store t buf2 count2.
Proof.
  intros Hok. rewrite (store_eq t buf1), !(store_eq _ buf2).
  destruct (decide ((strict_strtoul buf2 10).1 = 0)); [|done].
  destruct (decide ((strict_strtoul buf1 10).1 = 0)); reflexivity.
Qed.

(** X7: writing back what a read returned changes nothing.  If
    [strict_strtoul] reads the decimal text of every [unsigned char] value
    back as that value, storing the text shown for [compress_wheel]
    succeeds and leaves every field of the handle as it was. *)
Theorem store_of_show_is_identity (t : usb_tranzport) (count : Z) :
  (forall v, 0 <= v < 256 -> strict_strtoul (sprintf_d_nl v) 10 = (0, v)) ->
  0 <= compress_wheel t < 256 ->
  store t (show_compress_wheel t).2 count = (count, t).
Proof.
  intros Hback Hv. rewrite store_eq. cbn [show_compress_wheel show_value snd].
  rewrite Hback by done. cbn [fst snd]. rewrite decide_True by done.
  by rewrite Z.mod_small, set_compress_wheel_field_same.
Qed.

(** X8: what is read after a write.  Whether the write is accepted or
    rejected, [enable] and [offline] read as before; after an accepted
    write of [v], [compress_wheel] reads as the decimal text of
    [v mod 256]; after a rejected one it reads as before. *)
Theorem show_after_store (t : usb_tranzport) (buf : string) (count : Z) :
  let t' := (store t buf count).2 in
  show_enable t' = show_enable t /\
  show_offline t' = show_offline t /\
  show_compress_wheel t' =
    if decide ((strict_strtoul buf 10).1 = 0)
    then (Z.of_nat (String.length
                      (sprintf_d_nl ((strict_strtoul buf 10).2 mod 256))),
          sprintf_d_nl ((strict_strtoul buf 10).2 mod 256))
    else show_compress_wheel t.
Proof.
  cbn zeta. rewrite store_eq.
  by destruct (decide ((strict_strtoul buf 10).1 = 0)).
Qed.

(** X9: a write to [compress_wheel] and the shutdown routine do not
    interfere: in either order they leave the same handle, the write
    returns the same value and the routine makes the same kernel calls. *)
Theorem store_commutes_with_abort (t : usb_tranzport) (buf : string)
    (count : Z) :
  let a := usb_tranzport_abort_transfers t in
  let w := store t buf count in
  (store a.1 buf count).1 = w.1 /\
  (usb_tranzport_abort_transfers w.2).2 = a.2 /\
  (store a.1 buf count).2 = (usb_tranzport_abort_transfers w.2).1.
Proof.
  cbn zeta. rewrite !store_eq, !abort_transfers_eq.
  destruct (decide ((strict_strtoul buf 10).1 = 0));
    cbn [fst snd]; rewrite ?abort_transfers_eq; cbn [fst snd];
    split_and!; try done.
  change (interrupt_in_running (set_compress_wheel_field
            ((strict_strtoul buf 10).2 mod 256) t))
    with (interrupt_in_running t).
  destruct (decide (interrupt_in_running t = 0)); reflexivity.
Qed.

End AttributeFacts.


Lemma store_last_write_wins_witness :
  set_compress_wheel strict_strtoul_10
    (set_compress_wheel strict_strtoul_10 (fresh_handle 3) "x1" 2).2 "300" 3
  = set_compress_wheel strict_strtoul_10 (fresh_handle 3) "300" 3.
Proof.
  apply (store_last_write_wins strict_strtoul_10 (fresh_handle 3) "x1" "300" 2 3).
  reflexivity.
Defined.

Lemma store_of_show_is_identity_witness :
  set_compress_wheel strict_strtoul_10
    (set_compress_wheel_field 200 (fresh_handle 3))
    (show_compress_wheel (set_compress_wheel_field 200 (fresh_handle 3))).2 4
  = (4, set_compress_wheel_field 200 (fresh_handle 3)).
Proof.
  apply (store_of_show_is_identity strict_strtoul_10
           (set_compress_wheel_field 200 (fresh_handle 3)) 4).
  - apply sprintf_d_nl_reads_back.
  - cbn. lia.
Defined.

(** X10: the text shown for a field holding an [unsigned char] value is one
    to three decimal digits and a newline: the show accessor returns at
    least 2 and at most 4. *)
Theorem show_value_size (value : usb_tranzport -> Z) (t : usb_tranzport) :
  0 <= value t < 256 ->
  2 <= (show_value value t).1 <= 4.
Proof.
  intros Hv. unfold show_value. cbn [fst].
  assert (Hall : forallb (fun n =>
            bool_decide (2 <= Z.of_nat (String.length
                                          (sprintf_d_nl (Z.of_nat n))) <= 4))
            (seq 0 256) = true) by (vm_compute; reflexivity).
  rewrite forallb_forall in Hall.
  assert (Hin : In (Z.to_nat (value t)) (seq 0 256)) by (apply in_seq; lia).
  apply Hall in Hin. rewrite Z2Nat.id in Hin by lia.
  by apply bool_decide_eq_true in Hin.
Qed.

Lemma show_value_size_witness :
  2 <= (show_value compress_wheel
          (set_compress_wheel_field 255 (fresh_handle 3))).1 <= 4.
Proof.
  apply (show_value_size compress_wheel
           (set_compress_wheel_field 255 (fresh_handle 3))).
  cbn. lia.
Defined.

(** ** Module parameters *)

(** X11: of the five module parameters only [debug] can be written after
    load; [ring_buffer_size] and [write_buffer_size] are readable and not
    writable; the two minimum intervals have no permission bit, so they can
    be neither read nor written after load. *)
Theorem module_param_access (name : string) (perm : Z) :
  (name, perm) ∈ module_param_perm ->
  (Z.land perm S_IWUGO <> 0 <-> name = "debug"%string) /\
  (Z.land perm S_IRUGO = 0 <->
   name = "min_interrupt_in_interval"%string \/
   name = "min_interrupt_out_interval"%string) /\
  (exists d, (name, d) ∈ parm_desc).
Proof.
  unfold module_param_perm, parm_desc. intros Hin.
  rewrite !elem_of_cons, elem_of_nil in Hin.
  destruct Hin as [Hin|[Hin|[Hin|[Hin|[Hin|[]]]]]];
    injection Hin as -> ->;
    (split_and!;
     [ apply (bool_decide_unpack _); by vm_compute
     | apply (bool_decide_unpack _); by vm_compute
     | eexists;
       repeat first [apply list_elem_of_here | apply list_elem_of_further] ]).
Qed.

Lemma module_param_access_witness :
  Z.land (Z.lor S_IRUGO S_IWUSR) S_IWUGO <> 0 <-> "debug"%string = "debug"%string.
Proof.
  apply (module_param_access "debug" (Z.lor S_IRUGO S_IWUSR)).
  apply list_elem_of_here.
Defined.

(** ** The inbound callback: status before length *)

(** X12: on a completion with nonzero status the length test is never
    reached: the callback logs no warning, and what it does to the handle
    and which kernel calls it makes do not depend on [actual_length]. *)
Theorem in_callback_status_before_length (p : module_params)
    (mark_quiescent : usb_tranzport -> usb_tranzport)
    (u u' : urb) (dev : usb_tranzport) :
  status u <> 0 -> status u' = status u ->
  usb_tranzport_interrupt_in_callback p mark_quiescent u dev
    = usb_tranzport_interrupt_in_callback p mark_quiescent u' dev /\
  filter is_warn
    (usb_tranzport_interrupt_in_callback p mark_quiescent u dev).2 = [].
Proof.
  intros Hnz Heq. unfold usb_tranzport_interrupt_in_callback.
  rewrite Heq.
  destruct (decide (status u <> 0)); [|done].
  destruct (decide (device_gone (status u))); [by split|].
  split; [reflexivity|]. cbn. unfold dbg_info. by case_decide.
Qed.

Lemma in_callback_status_before_length_witness :
  usb_tranzport_interrupt_in_callback default_params
      (set_interrupt_in_running 0)
      {| status := -71; actual_length := 3 |} (fresh_handle 3)
    = usb_tranzport_interrupt_in_callback default_params
        (set_interrupt_in_running 0)
        {| status := -71; actual_length := 8 |} (fresh_handle 3) /\
  filter is_warn
    (usb_tranzport_interrupt_in_callback default_params
       (set_interrupt_in_running 0)
       {| status := -71; actual_length := 3 |} (fresh_handle 3)).2 = [].
Proof.
  apply (in_callback_status_before_length default_params
           (set_interrupt_in_running 0)
           {| status := -71; actual_length := 3 |}
           {| status := -71; actual_length := 8 |} (fresh_handle 3)).
  - cbn. lia.
  - reflexivity.
Defined.
